(** * A health-check server on Express: the embedding and its properties

    The source, [src/app.ts], has two parts.

    - The application: it builds the Express application and registers one
      route, [GET /health], whose handler answers
      [res.status(200).json({status, message, timestamp})].
    - The entry point (the README's [src/index.ts]): it reads
      [process.env.PORT], falls back to [8000], and calls
      [app.listen(PORT, callback)] inside a [try]/[catch] whose handler
      logs and calls [process.exit(1)].

    The program is a few lines of glue over its host: the ECMAScript [Date]
    and [JSON] objects, the Express response and router, and Node's
    [process], [console] and [listen].  The host operations the program
    calls are embedded here as executable definitions, each after the
    contract its documentation gives for the way the source calls it; the
    program itself ([health_handler], [app], [PORT], [startServer]) is
    transcribed statement by statement on top of them.

    JavaScript strings are modelled as Rocq strings (sequences of bytes);
    every string literal of the source is ASCII except the emoji of the log
    lines, which are kept as their UTF-8 bytes. *)

From stdpp Require Import gmap strings list pretty sorting.
From Stdlib Require Import ZArith Lia Ascii String.

Local Open Scope Z_scope.

(** ** Text helpers *)

Module Text.

(** The double quote, written by its decimal code. *)
Definition dquote : ascii := "034"%char.


(** ASCII lower case of one character: [A]..[Z] move to [a]..[z], every
    other byte is left alone. *)
Definition lower_char (c : ascii) : ascii :=
  let n := N_of_ascii c in
  if ((65 <=? n) && (n <=? 90))%N then ascii_of_N (n + 32) else c.

Fixpoint lower (s : string) : string :=
  match s with
  | EmptyString => EmptyString
  | String c s' => String (lower_char c) (lower s')
  end.

(** The part of [s] before the first occurrence of [c] (all of [s] when
    there is none). *)
Fixpoint before (c : ascii) (s : string) : string :=
  match s with
  | EmptyString => EmptyString
  | String c' s' => if Ascii.eqb c c' then EmptyString else String c' (before c s')
  end.

End Text.

(** ** ECMAScript time values and [Date.prototype.toISOString]

    ECMA-262, section "Date Objects": a time value is a number of
    milliseconds since 1970-01-01T00:00:00Z, or NaN.  Time values are
    [option Z] here, [None] being NaN. *)

Module Date.

Import Text.

Definition msPerDay : Z := 86400000.
Definition msPerHour : Z := 3600000.
Definition msPerMinute : Z := 60000.
Definition msPerSecond : Z := 1000.

(** The largest magnitude of a time value: 8.64e15 ms, that is one
    hundred million days on either side of the epoch. *)
Definition maxTime : Z := 8640000000000000.

Definition Day (t : Z) : Z := t / msPerDay.

Definition is_leap (y : Z) : bool :=
  if negb (y mod 4 =? 0) then false
  else if negb (y mod 100 =? 0) then true
  else if negb (y mod 400 =? 0) then false
  else true.

Definition DaysInYear (y : Z) : Z := if is_leap y then 366 else 365.

Definition DayFromYear (y : Z) : Z :=
  365 * (y - 1970) + (y - 1969) / 4 - (y - 1901) / 100 + (y - 1601) / 400.

Definition TimeFromYear (y : Z) : Z := msPerDay * DayFromYear y.

(** ECMA-262 defines [YearFromTime t] as the largest integer [y] with
    [TimeFromYear y <= t].  It is computed here from the mean length of
    a Gregorian year (146097 days in 400 years), which is off by at most
    one; [DateFacts.YearFromTime_spec] and [DateFacts.YearFromTime_largest]
    show that the result is the year ECMA-262 defines. *)
Definition YearFromDay (d : Z) : Z :=
  let y0 := 1970 + (400 * d) / 146097 in
  if DayFromYear (y0 + 1) <=? d then y0 + 1
  else if DayFromYear y0 <=? d then y0
  else y0 - 1.

Definition YearFromTime (t : Z) : Z := YearFromDay (Day t).

Definition InLeapYear (t : Z) : Z :=
  if DaysInYear (YearFromTime t) =? 366 then 1 else 0.

Definition DayWithinYear (t : Z) : Z := Day t - DayFromYear (YearFromTime t).

Definition MonthFromTime (t : Z) : Z :=
  let d := DayWithinYear t in
  let l := InLeapYear t in
  if d <? 31 then 0
  else if d <? 59 + l then 1
  else if d <? 90 + l then 2
  else if d <? 120 + l then 3
  else if d <? 151 + l then 4
  else if d <? 181 + l then 5
  else if d <? 212 + l then 6
  else if d <? 243 + l then 7
  else if d <? 273 + l then 8
  else if d <? 304 + l then 9
  else if d <? 334 + l then 10
  else 11.

Definition DateFromTime (t : Z) : Z :=
  let d := DayWithinYear t in
  let l := InLeapYear t in
  match MonthFromTime t with
  | 0 => d + 1
  | 1 => d - 30
  | 2 => d - 58 - l
  | 3 => d - 89 - l
  | 4 => d - 119 - l
  | 5 => d - 150 - l
  | 6 => d - 180 - l
  | 7 => d - 211 - l
  | 8 => d - 242 - l
  | 9 => d - 272 - l
  | 10 => d - 303 - l
  | _ => d - 333 - l
  end.

Definition HourFromTime (t : Z) : Z := (t / msPerHour) mod 24.
Definition MinFromTime (t : Z) : Z := (t / msPerMinute) mod 60.
Definition SecFromTime (t : Z) : Z := (t / msPerSecond) mod 60.
Definition msFromTime (t : Z) : Z := t mod msPerSecond.






(** [TimeClip]: a time outside the representable range becomes NaN. *)
Definition TimeClip (t : Z) : option Z :=
  if Z.abs t <=? maxTime then Some t else None.

(** The clock readings that are time values. *)
Definition representable (t : Z) : Prop := Z.abs t <= maxTime.

(** *** Decimal fields *)

Definition digit_char (d : Z) : ascii :=
  match d with
  | 0 => "0" | 1 => "1" | 2 => "2" | 3 => "3" | 4 => "4"
  | 5 => "5" | 6 => "6" | 7 => "7" | 8 => "8" | _ => "9"
  end%char.


(** [pad w k]: the last [w] decimal digits of [k], most significant
    first, with leading zeros. *)
Fixpoint pad (w : nat) (k : Z) : string :=
  match w with
  | O => EmptyString
  | S w' => String (digit_char ((k / 10 ^ Z.of_nat w') mod 10)) (pad w' k)
  end.

(** The year of the ECMAScript date-time string format: four digits for
    the years 0 to 9999, otherwise a sign and six digits. *)
Definition year_string (y : Z) : string :=
  if (0 <=? y) && (y <=? 9999) then pad 4 y
  else if 0 <=? y then String "+" (pad 6 y)
  else String "-" (pad 6 (- y)).

(** The text [YYYY-MM-DDTHH:mm:ss.sssZ] of a finite time value. *)
Definition iso_string (t : Z) : string :=
  year_string (YearFromTime t) +:+ "-" +:+ pad 2 (MonthFromTime t + 1)
    +:+ "-" +:+ pad 2 (DateFromTime t)
    +:+ "T" +:+ pad 2 (HourFromTime t)
    +:+ ":" +:+ pad 2 (MinFromTime t)
    +:+ ":" +:+ pad 2 (SecFromTime t)
    +:+ "." +:+ pad 3 (msFromTime t) +:+ "Z".

(** *** Reading the format back

    The reader accepts the complete UTC form of the ECMAScript date-time
    string format, a profile of ISO 8601: a year of four digits or of a
    sign and six digits (but not [-000000]), a month 01..12, a day that
    exists in that month, 00..23 hours, 00..59 minutes and seconds, three
    digits of milliseconds and the zone designator [Z]. *)




End Date.

(** ** JavaScript values, errors and completions *)

Module JS.

(** The values that flow through the entry point: [process.env.PORT] is a
    string or [undefined], the fallback is the number [8000]. *)
Inductive value :=
| VUndefined
| VNumber (n : Z)
| VString (s : string).

(** [ToBoolean]: [undefined], [0] and the empty string are falsy. *)
Definition ToBoolean (v : value) : bool :=
  match v with
  | VUndefined => false
  | VNumber n => negb (n =? 0)
  | VString s => negb (String.eqb s "")
  end.

(** [a || b] *)
Definition or (a b : value) : value := if ToBoolean a then a else b.

(** [ToString], as a template literal applies it; integers print in
    decimal. *)
Definition ToString (v : value) : string :=
  match v with
  | VUndefined => "undefined"
  | VNumber n => pretty n
  | VString s => s
  end.

(** A thrown error object: its [name] and [message]. *)
Record error := Error { err_name : string; err_message : string }.

(** The completion of an evaluation: a value, or a throw. *)
Inductive completion (A : Type) :=
| Normal (a : A)
| Throw (e : error).
Arguments Normal {A} a.
Arguments Throw {A} e.

(** [process.env]: a map from names to strings; a missing name reads as
    [undefined]. *)
Definition env_get (env : gmap string string) (name : string) : value :=
  match env !! name with
  | Some s => VString s
  | None => VUndefined
  end.

End JS.

(** ** [JSON.stringify] on the values the handler serialises *)

Module JSON.

Import Text.

(** The handler passes an object literal whose members are strings. *)
#[local] Set Warnings "-register-all".
Inductive value :=
| Str (s : string)
| Obj (members : list (string * value)).

Definition hex_digit (n : N) : ascii :=
  (if n <? 10 then ascii_of_N (48 + n) else ascii_of_N (87 + n))%N.

(** ECMA-262, QuoteJSONString: the two-character escapes of the table,
    [\u00xx] for the other control characters, the character itself
    otherwise. *)
Definition escape_char (c : ascii) : string :=
  let n := N_of_ascii c in
  (if n =? 8 then "\b"
   else if n =? 9 then "\t"
   else if n =? 10 then "\n"
   else if n =? 12 then "\f"
   else if n =? 13 then "\r"
   else if n =? 34 then String "\" (String dquote EmptyString)
   else if n =? 92 then "\\"
   else if n <? 32 then
     "\u00" +:+ String (hex_digit (n / 16)) (String (hex_digit (n mod 16)) EmptyString)
   else String c EmptyString)%N.

Fixpoint escape (s : string) : string :=
  match s with
  | EmptyString => EmptyString
  | String c s' => escape_char c +:+ escape s'
  end.

Definition QuoteJSONString (s : string) : string :=
  String dquote (escape s +:+ String dquote EmptyString).

(** [JSON.stringify v] without indentation: members in insertion order,
    separated by commas, no white space. *)
Fixpoint stringify (v : value) : string :=
  match v with
  | Str s => QuoteJSONString s
  | Obj members =>
      let fix go (l : list (string * value)) : string :=
        match l with
        | [] => EmptyString
        | [(k, x)] => QuoteJSONString k +:+ ":" +:+ stringify x
        | (k, x) :: rest => QuoteJSONString k +:+ ":" +:+ stringify x +:+ "," +:+ go rest
        end in
      "{" +:+ go members +:+ "}"
  end.

(** An object of strings as a value, and the text of its members as
    [stringify] writes them. *)
Definition lift (m : string * string) : string * value := (m.1, Str m.2).


(** *** Reading a compact object of strings

    A reader for the JSON texts of the shape the handler sends: one
    object whose member values are strings, without white space.  It
    decodes every escape of the JSON grammar whose character fits a
    byte. *)










End JSON.

(** ** The Express response and router

    The part of Express that [src/app.ts] drives: [res.status], [res.json],
    [app.route(path).get(handler)] and the dispatch of a request to the
    registered routes, with the settings a bare [express()] has.  Of the
    response, the model keeps what the handler decides through these calls:
    the status code, the [Content-Type] header that [res.json] sets, the
    body, and the record of what has been sent.  The headers that
    [res.send] derives from the body on its own (Content-Length, ETag) and
    the validation of conditional requests that rests on them belong to the
    framework's HTTP layer and are left out. *)

Module Express.

Import Text.

Inductive http_method := GET | HEAD | POST | PUT | DELETE | PATCH | OPTIONS.

#[global] Instance http_method_eq_dec : EqDecision http_method.
Proof. solve_decision. Defined.

(** An incoming request: the method, the request target as [req.url] has
    it (path and query string), the headers and the body. *)
Record request := Request {
  req_method : http_method;
  req_url : string;
  req_headers : gmap string string;
  req_body : string
}.

(** A response as sent. *)
Record response := Response {
  status : Z;
  headers : gmap string string;
  body : string
}.

(** The response object [res] while a handler runs: the status code and
    headers set so far (the status code starts at 200), and the responses
    sent through it. *)
Record res_state := Res {
  statusCode : Z;
  res_headers : gmap string string;
  sent : list response
}.

Definition new_res : res_state :=
  {| statusCode := 200; res_headers := ∅; sent := [] |}.

(** *** Handler computations

    A handler reads the clock and updates [res]; any step may throw. *)
Definition M (A : Type) : Type :=
  Z → res_state → JS.completion A * res_state.

Definition ret {A} (a : A) : M A := λ _ r, (JS.Normal a, r).

Definition bind {A B} (m : M A) (k : A → M B) : M B :=
  λ now r,
    match m now r with
    | (JS.Normal a, r') => k a now r'
    | (JS.Throw e, r') => (JS.Throw e, r')
    end.

Definition throw {A} (e : JS.error) : M A := λ _ r, (JS.Throw e, r).

#[global] Instance M_ret : MRet M := @ret.
#[global] Instance M_bind : MBind M := λ A B k m, bind m k.

(** [new Date()]: the clock, clipped to the range of time values. *)
Definition new_Date : M (option Z) := λ now r, (JS.Normal (Date.TimeClip now), r).

(** [d.toISOString()]: a RangeError on an invalid date. *)
Definition toISOString (d : option Z) : M string :=
  match d with
  | Some t => ret (Date.iso_string t)
  | None => throw (JS.Error "RangeError" "Invalid time value")
  end.

(** [res.status(code)] *)
Definition res_status (code : Z) : M unit :=
  λ _ r, (JS.Normal (), {| statusCode := code; res_headers := res_headers r; sent := sent r |}).

(** The media type of a [Content-Type] value: the text before its
    parameters. *)
Definition media_type (content_type : string) : string := before ";" content_type.

(** [setCharset(type, 'utf-8')], exact for a type without parameters. *)
Definition setCharset (content_type : string) : string :=
  media_type content_type +:+ "; charset=utf-8".

(** [res.send(body)] with a string: the charset is added to the content
    type (text/html when none was set), and the response goes out with
    the current status code.  Sending twice throws. *)
Definition res_send (text : string) : M unit :=
  λ _ r,
    match sent r with
    | _ :: _ =>
        (JS.Throw (JS.Error "Error" "Cannot set headers after they are sent to the client"), r)
    | [] =>
        let ct := setCharset (default "text/html" (res_headers r !! "content-type")) in
        let hs := <["content-type" := ct]> (res_headers r) in
        (JS.Normal (),
         {| statusCode := statusCode r; res_headers := hs;
            sent := [ {| status := statusCode r; headers := hs; body := text |} ] |})
    end.

(** [res.json(obj)]: the body is [JSON.stringify(obj)]; the content type
    becomes application/json unless one was set. *)
Definition res_json (obj : JSON.value) : M unit :=
  λ now r,
    let hs := match res_headers r !! "content-type" with
              | Some _ => res_headers r
              | None => <["content-type" := "application/json"]> (res_headers r)
              end in
    res_send (JSON.stringify obj) now
      {| statusCode := statusCode r; res_headers := hs; sent := sent r |}.

(** *** Routes *)

Definition handler : Type := request → M unit.

(** [app.route(path)] with the handlers its verb methods added. *)
Record route := Route {
  route_path : string;
  route_handlers : list (http_method * handler)
}.

(** [req.path]: the request target up to the query string. *)
Definition pathname (url : string) : string := before "?" url.

(** A literal route path against a request path, under the defaults of
    [express()]: case-insensitive routing, and non-strict routing, which
    lets one trailing slash through. *)
Definition path_matches (pattern path : string) : bool :=
  let p := lower path in
  String.eqb p (lower pattern) || String.eqb p (lower pattern +:+ "/").

Fixpoint find_handler (m : http_method) (hs : list (http_method * handler)) : option handler :=
  match hs with
  | [] => None
  | (m', h) :: rest => if decide (m = m') then Some h else find_handler m rest
  end.

(** The handler a route runs for a method; HEAD falls back on the GET
    handler. *)
Definition route_handler (r : route) (m : http_method) : option handler :=
  match find_handler m (route_handlers r) with
  | Some h => Some h
  | None => if decide (m = HEAD) then find_handler GET (route_handlers r) else None
  end.

(** The methods a route allows, for the automatic OPTIONS reply. *)
Definition route_allows (r : route) : list http_method :=
  let ms := map fst (route_handlers r) in
  if decide (GET ∈ ms ∧ HEAD ∉ ms) then ms ++ [HEAD] else ms.

(** What becomes of a request. *)
Inductive outcome :=
| Responded (w : response)          (* the handler sent [w] *)
| AutoOptions (allow : list http_method) (* 200 with an Allow header *)
| NotFound                          (* no route: the final handler's 404 *)
| ServerError (e : JS.error)        (* the handler threw: 500 *)
| Pending.                          (* the handler returned without sending *)

Definition status_of (o : outcome) : option Z :=
  match o with
  | Responded w => Some (status w)
  | AutoOptions _ => Some 200
  | NotFound => Some 404
  | ServerError _ => Some 500
  | Pending => None
  end.

(** Run a handler on a fresh [res]; a HEAD request gets no body. *)
Definition run_handler (h : handler) (now : Z) (req : request) : outcome :=
  match h req now new_res with
  | (JS.Throw e, _) => ServerError e
  | (JS.Normal _, r) =>
      match sent r with
      | [] => Pending
      | w :: _ =>
          if decide (req_method req = HEAD)
          then Responded {| status := status w; headers := headers w; body := "" |}
          else Responded w
      end
  end.

(** The router: the first route whose path matches and that handles the
    method runs; an OPTIONS request collects the methods of the matching
    routes instead. *)
Fixpoint dispatch (routes : list route) (allow : list http_method)
    (now : Z) (req : request) : outcome :=
  match routes with
  | [] =>
      match allow with
      | [] => NotFound
      | _ :: _ => AutoOptions allow
      end
  | r :: rest =>
      if path_matches (route_path r) (pathname (req_url req)) then
        match route_handler r (req_method req) with
        | Some h => run_handler h now req
        | None =>
            dispatch rest
              (if decide (req_method req = OPTIONS) then allow ++ route_allows r else allow)
              now req
        end
      else dispatch rest allow now req
  end.

(** [app.handle]: a request received when the clock reads [now]. *)
Definition handle (routes : list route) (now : Z) (req : request) : outcome :=
  dispatch routes [] now req.

(** Requests served one after the other, each at its own clock reading. *)
Definition serve (routes : list route) (arrivals : list (Z * request)) : list outcome :=
  map (λ a, handle routes a.1 a.2) arrivals.

End Express.

(** ** [src/app.ts]: the application *)

Module App.

Import Express.

(** [[
    (_, res) => {
      res.status(200).json({
        status: "OK",
        message: "Server is running",
        timestamp: new Date().toISOString(),
      });
    }
    ]]
    The receiver [res.status(200)] is evaluated before the argument of
    [json]. *)
Definition health_handler : handler :=
  λ _,
    res_status 200 ;;
    d ← new_Date;
    timestamp ← toISOString d;
    res_json (JSON.Obj [ ("status", JSON.Str "OK");
                         ("message", JSON.Str "Server is running");
                         ("timestamp", JSON.Str timestamp) ]).

(** [const app = express(); app.route("/health").get(handler);] *)
Definition app : list route :=
  [ {| route_path := "/health"; route_handlers := [ (GET, health_handler) ] |} ].

End App.

(** ** [src/app.ts]: the entry point *)

Module Index.

Import JS.

(** What the process does to the outside world, in order. *)
Inductive effect :=
| Listen (port : value)                    (* app.listen(port, callback) is called *)
| ConsoleLog (line : string)               (* console.log(line) *)
| ConsoleError (message : string) (e : error) (* console.error(message, e) *)
| Exit (code : Z)                          (* process.exit(code) *)
| UncaughtException (e : error).           (* Node reports [e] and ends the process *)

(** How a failed bind reaches the program.  [listen] returns before the
    socket is bound; the failure (EADDRINUSE and the like) is emitted
    afterwards as the server's [error] event.  The [app.listen] of
    Express 4 registers the callback for [listening] only, so the event
    has no listener and becomes an uncaught exception; the one of
    Express 5 also registers the callback for [error] and calls it with
    the error. *)
Inductive error_delivery :=
| ErrorEventUnhandled
| ErrorToCallback.

(** The host of one run: the synchronous argument check of [listen]
    (a port outside 0..65535 throws [ERR_SOCKET_BAD_PORT]), the result
    of the bind that follows, and the Express in use. *)
Record host := Host {
  listen_throws : value → option error;
  bind_fails : value → option error;
  delivery : error_delivery
}.

(** How the process stands after start-up. *)
Inductive state :=
| Listening
| Exited (code : Z).

(** [const PORT = process.env.PORT || 8000;] *)
Definition PORT (env : gmap string string) : value :=
  or (env_get env "PORT") (VNumber 8000).

(** The callback given to [app.listen]: it takes no argument and logs
    two lines. *)
Definition listen_callback (port : value) : list effect :=
  [ ConsoleLog ("🚀 Server running on http://localhost:" +:+ ToString port);
    ConsoleLog ("📊 Health check available at http://localhost:" +:+ ToString port +:+ "/health") ].

(** The call [app.listen(PORT, callback)] itself: it throws what the
    argument check throws and otherwise returns. *)
Definition app_listen (h : host) (port : value) : completion unit :=
  match listen_throws h port with
  | Some e => Throw e
  | None => Normal ()
  end.

(** [[
    const startServer = () => {
      try { app.listen(PORT, callback); }
      catch (error) {
        console.error("❌ Failed to start server:", error);
        process.exit(1);
      }
    };
    ]]
    The result is the effects of the call and the exit code when
    [process.exit] ran. *)
Definition startServer (h : host) (port : value) : list effect * option Z :=
  match app_listen h port with
  | Normal _ => ([Listen port], None)
  | Throw e =>
      ([Listen port; ConsoleError "❌ Failed to start server:" e; Exit 1], Some 1)
  end.

(** The module body, [startServer()], followed by the delivery of the
    bind result by the event loop.  When the bind failed and the
    callback was called with the error, nothing keeps the process alive
    and it ends with code 0; an uncaught exception ends it with
    code 1. *)
Definition main (env : gmap string string) (h : host) : list effect * state :=
  let port := PORT env in
  match startServer h port with
  | (effects, Some code) => (effects, Exited code)
  | (effects, None) =>
      match bind_fails h port with
      | None => (effects ++ listen_callback port, Listening)
      | Some e =>
          match delivery h with
          | ErrorEventUnhandled => (effects ++ [UncaughtException e], Exited 1)
          | ErrorToCallback => (effects ++ listen_callback port, Exited 0)
          end
      end
  end.

(** The port handed to [listen], if [listen] was called. *)
Fixpoint listen_target (effects : list effect) : option value :=
  match effects with
  | [] => None
  | Listen port :: _ => Some port
  | _ :: rest => listen_target rest
  end.

(** The line that announces a running server. *)
Definition is_running_line (e : effect) : bool :=
  match e with
  | ConsoleLog line => String.prefix "🚀 Server running" line
  | _ => false
  end.

(** Did the [catch] block run: its [console.error] and its
    [process.exit]. *)
Definition is_catch_effect (e : effect) : bool :=
  match e with
  | ConsoleError _ _ | Exit _ => true
  | _ => false
  end.

(** A whole run: start-up, then the requests that arrive, which are
    answered only by a process that is listening. *)
Definition run (env : gmap string string) (h : host)
    (arrivals : list (Z * Express.request)) : list effect * state * list Express.outcome :=
  match main env h with
  | (effects, Listening) => (effects, Listening, Express.serve App.app arrivals)
  | (effects, Exited code) => (effects, Exited code, [])
  end.

End Index.

(** ** What a client reads from an outcome *)

Module Client.

Import Express.




Definition content_type (o : outcome) : option string :=
  match o with
  | Responded w => headers w !! "content-type"
  | _ => None
  end.

(** A GET request whose path is [/health]; the query string, the headers
    and the body are free. *)
Definition is_health_get (req : request) : Prop :=
  req_method req = GET ∧ pathname (req_url req) = "/health".

End Client.

(** ** Sample inputs *)

Module Samples.

Import Express.

(** 2023-11-14T22:13:20.000Z *)
Definition an_instant : Z := 1700000000000.




Definition get_unknown : request :=
  {| req_method := GET; req_url := "/unknown"; req_headers := ∅; req_body := "" |}.

(** The path differs from [/health] by the case of its letters. *)
Definition get_upper : request :=
  {| req_method := GET; req_url := "/HEALTH"; req_headers := ∅; req_body := "" |}.

(** The path differs from [/health] by a trailing slash. *)
Definition get_slash : request :=
  {| req_method := GET; req_url := "/health/"; req_headers := ∅; req_body := "" |}.


(** The error of a bind on a port that is taken. *)
Definition EADDRINUSE : JS.error :=
  JS.Error "Error" "listen EADDRINUSE: address already in use :::8000".

(** A host on which every argument of [listen] is accepted and every
    bind succeeds. *)
Definition free_host : Index.host :=
  {| Index.listen_throws := λ _, None;
     Index.bind_fails := λ _, None;
     Index.delivery := Index.ErrorEventUnhandled |}.

(** A host whose port 8000 is taken: [listen] returns, and the bind
    fails afterwards. *)
Definition port_in_use (d : Index.error_delivery) : Index.host :=
  {| Index.listen_throws := λ _, None;
     Index.bind_fails := λ _, Some EADDRINUSE;
     Index.delivery := d |}.

(** A host whose [listen] rejects its argument on the spot. *)
Definition bad_port_host : Index.host :=
  {| Index.listen_throws :=
       λ _, Some (JS.Error "RangeError" "options.port should be >= 0 and < 65536");
     Index.bind_fails := λ _, None;
     Index.delivery := Index.ErrorEventUnhandled |}.

End Samples.

(** * Properties *)

(** ** Text *)

Module TextFacts.





End TextFacts.

(** ** Calendar arithmetic *)

Module DateFacts.

Import Date.

(** Replace every quotient and remainder by a constant with the
    equations that define them, so that [lia] sees linear facts only. *)
Ltac div_mod_to_equations_at a b :=
  let q := fresh "q" in
  let r := fresh "r" in
  let Hq := fresh "Hq" in
  let Hr := fresh "Hr" in
  pose proof (Z.div_mod a b ltac:(lia)) as Hq;
  pose proof (Z.mod_pos_bound a b ltac:(lia)) as Hr;
  set (q := a / b) in *; set (r := a mod b) in *;
  clearbody q r.

Ltac linear_div :=
  repeat match goal with
    | |- context [ ?a / ?b ] => div_mod_to_equations_at a b
    | |- context [ ?a mod ?b ] => div_mod_to_equations_at a b
    | H : context [ ?a / ?b ] |- _ => div_mod_to_equations_at a b
    | H : context [ ?a mod ?b ] |- _ => div_mod_to_equations_at a b
    end.

Lemma DayFromYear_succ (y : Z) :
  DayFromYear (y + 1) = DayFromYear y + DaysInYear y.
Proof.
  unfold DayFromYear, DaysInYear, is_leap.
  repeat case_match; linear_div; lia.
Qed.

Lemma DaysInYear_pos (y : Z) : 365 <= DaysInYear y <= 366.
Proof. unfold DaysInYear. case_match; lia. Qed.

Lemma DayFromYear_mono (y1 y2 : Z) :
  y1 <= y2 → DayFromYear y1 <= DayFromYear y2.
Proof.
  intros Hle. replace y2 with (y1 + Z.of_nat (Z.to_nat (y2 - y1))) by lia.
  induction (Z.to_nat (y2 - y1)) as [|n IH].
  - replace (y1 + Z.of_nat 0) with y1 by lia. lia.
  - replace (y1 + Z.of_nat (S n)) with (y1 + Z.of_nat n + 1) by lia.
    rewrite DayFromYear_succ.
    pose proof (DaysInYear_pos (y1 + Z.of_nat n)). lia.
Qed.

(** The year computed from the mean year length is the year whose days
    contain [d]. *)
Lemma YearFromDay_spec (d : Z) :
  DayFromYear (YearFromDay d) <= d < DayFromYear (YearFromDay d + 1).
Proof.
  unfold YearFromDay. cbv zeta.
  set (y0 := 1970 + 400 * d / 146097).
  assert (DayFromYear (y0 - 1) <= d) as Hlo
    by (subst y0; unfold DayFromYear; linear_div; lia).
  assert (d < DayFromYear (y0 + 2)) as Hhi
    by (subst y0; unfold DayFromYear; linear_div; lia).
  replace (y0 + 2) with (y0 + 1 + 1) in Hhi by lia.
  destruct (Z.leb_spec (DayFromYear (y0 + 1)) d); [lia|].
  destruct (Z.leb_spec (DayFromYear y0) d); [lia|].
  replace (y0 - 1 + 1) with y0 by lia. lia.
Qed.

Lemma YearFromTime_spec (t : Z) :
  TimeFromYear (YearFromTime t) <= t < TimeFromYear (YearFromTime t + 1).
Proof.
  unfold TimeFromYear, YearFromTime.
  pose proof (YearFromDay_spec (Day t)) as H. revert H.
  generalize (DayFromYear (YearFromDay (Day t))).
  generalize (DayFromYear (YearFromDay (Day t) + 1)).
  unfold Day, msPerDay. intros a b H. linear_div. lia.
Qed.

(** ... and it is the largest such year, as ECMA-262 words it. *)
Lemma YearFromTime_largest (t y : Z) :
  TimeFromYear y <= t → y <= YearFromTime t.
Proof.
  intros Hy. destruct (Z_le_gt_dec y (YearFromTime t)) as [|Hgt]; [done|].
  pose proof (YearFromTime_spec t) as [_ Hlt].
  pose proof (DayFromYear_mono (YearFromTime t + 1) y ltac:(lia)).
  unfold TimeFromYear, msPerDay in *. lia.
Qed.










(** *** The text of a time value reads back *)






Lemma TimeClip_in_range (t : Z) : Z.abs t <= maxTime → TimeClip t = Some t.
Proof. intros Ht. unfold TimeClip. by destruct (Z.leb_spec (Z.abs t) maxTime); [|lia]. Qed.

Lemma TimeClip_Some (t u : Z) : TimeClip t = Some u → u = t ∧ Z.abs t <= maxTime.
Proof.
  unfold TimeClip. destruct (Z.leb_spec (Z.abs t) maxTime); [|done].
  intros [= <-]. done.
Qed.

End DateFacts.

(** ** The JSON text of an object of strings reads back *)

Module JSONFacts.

Import Text JSON TextFacts.








End JSONFacts.

(** ** The handler and the router *)

Module ExpressFacts.

Import Express Client.

(** The handler, run on a fresh response object at a representable
    instant, returns normally having sent one response. *)
Lemma health_handler_run (now : Z) (req : request) :
  Date.representable now →
  App.health_handler req now new_res =
    (JS.Normal (),
     let hs := {[ "content-type" := "application/json; charset=utf-8" ]} in
     let w := {| status := 200; headers := hs;
                 body := JSON.stringify
                   (JSON.Obj (map JSON.lift
                      [ ("status", "OK"); ("message", "Server is running");
                        ("timestamp", Date.iso_string now) ])) |} in
     {| statusCode := 200; res_headers := hs; sent := [w] |}).
Proof.
  intros Ht. unfold App.health_handler.
  unfold mbind, M_bind, bind, res_status, new_Date.
  rewrite DateFacts.TimeClip_in_range by done.
  unfold toISOString, ret, res_json, res_send. cbn [statusCode res_headers sent new_res].
  rewrite lookup_empty. cbn [default].
  rewrite lookup_insert_eq, insert_insert_eq. cbn [default].
  reflexivity.
Qed.


(** The router sees a request through its method and path only. *)
Lemma handle_health_get (now : Z) (req : request) :
  is_health_get req →
  handle App.app now req = run_handler App.health_handler now req.
Proof.
  intros [Hm Hp]. unfold handle, App.app.
  cbn [dispatch route_path]. rewrite Hp, Hm. reflexivity.
Qed.

Lemma handle_health (now : Z) (req : request) :
  is_health_get req → Date.representable now →
  handle App.app now req =
    Responded
      {| status := 200;
         headers := {[ "content-type" := "application/json; charset=utf-8" ]};
         body := JSON.stringify
           (JSON.Obj (map JSON.lift
              [ ("status", "OK"); ("message", "Server is running");
                ("timestamp", Date.iso_string now) ])) |}.
Proof.
  intros Hreq Ht. rewrite handle_health_get by done.
  unfold run_handler. rewrite health_handler_run by done.
  cbv zeta. cbn [sent]. destruct Hreq as [-> _]. reflexivity.
Qed.





End ExpressFacts.

(** ** Start-up *)

Module IndexFacts.

Import JS Index.

Lemma main_listen_target (env : gmap string string) (h : host) :
  listen_target (main env h).1 = Some (PORT env).
Proof.
  unfold main, startServer, app_listen.
  destruct (listen_throws h (PORT env)); [reflexivity|].
  destruct (bind_fails h (PORT env)); [destruct (delivery h)|]; reflexivity.
Qed.

(** When [app.listen] throws, the [catch] block runs: the error is
    logged, the process exits with code 1 and the callback never ran. *)
Lemma main_listen_throws (env : gmap string string) (h : host) (e : error) :
  listen_throws h (PORT env) = Some e →
  main env h =
    ([ Listen (PORT env); ConsoleError "❌ Failed to start server:" e; Exit 1 ],
     Exited 1)
  ∧ existsb is_running_line (main env h).1 = false.
Proof.
  intros He. unfold main, startServer, app_listen. rewrite He. done.
Qed.

(** When the bind succeeds the callback logs its two lines and the
    process keeps listening. *)
Lemma main_listening (env : gmap string string) (h : host) :
  listen_throws h (PORT env) = None → bind_fails h (PORT env) = None →
  main env h = (Listen (PORT env) :: listen_callback (PORT env), Listening).
Proof.
  intros H1 H2. unfold main, startServer, app_listen. by rewrite H1, H2.
Qed.

End IndexFacts.

(** * The claims *)

Import Express Client.








(** C3.  When the environment has no [PORT], [listen] is called with the
    number 8000, whatever the host does next; and when the host accepts
    the call and the bind succeeds, the process ends up listening, having
    announced port 8000. *)
Theorem C3_default_port (env : gmap string string) (h : Index.host) :
  env !! "PORT" = None →
  Index.listen_target (Index.main env h).1 = Some (JS.VNumber 8000)
  ∧ (Index.listen_throws h (JS.VNumber 8000) = None →
     Index.bind_fails h (JS.VNumber 8000) = None →
     Index.main env h
     = ([ Index.Listen (JS.VNumber 8000);
          Index.ConsoleLog "🚀 Server running on http://localhost:8000";
          Index.ConsoleLog "📊 Health check available at http://localhost:8000/health" ],
        Index.Listening)).
Proof.
  intros Hunset.
  assert (Index.PORT env = JS.VNumber 8000) as Hport
    by (unfold Index.PORT, JS.env_get; by rewrite Hunset).
  split.
  - by rewrite IndexFacts.main_listen_target, Hport.
  - intros Hl Hb. rewrite IndexFacts.main_listening by (by rewrite Hport).
    rewrite Hport. reflexivity.
Qed.

Lemma C3_witness :
  (∅ : gmap string string) !! "PORT" = None
  ∧ Index.listen_target (Index.main ∅ Samples.free_host).1 = Some (JS.VNumber 8000)
  ∧ (Index.main ∅ Samples.free_host).2 = Index.Listening.
Proof.
  split; [reflexivity|]. split.
  - exact (proj1 (C3_default_port ∅ Samples.free_host eq_refl)).
  - exact (f_equal snd (proj2 (C3_default_port ∅ Samples.free_host eq_refl) eq_refl eq_refl)).
Defined.

(** C4, at the input on which the code misses it.  Port 8000 is taken:
    [app.listen] returns and the bind fails afterwards.  Under either
    delivery of the failure the [catch] block does not run, so nothing is
    logged by [console.error] and [process.exit(1)] is not called.  With
    the failure left to Node the process dies of the uncaught exception
    with code 1; with the failure handed to the callback the program
    prints the line that announces a running server and ends with
    code 0. *)
Theorem C4_bind_failure_is_not_caught :
  (∀ d : Index.error_delivery,
     existsb Index.is_catch_effect (Index.main ∅ (Samples.port_in_use d)).1 = false)
  ∧ Index.main ∅ (Samples.port_in_use Index.ErrorEventUnhandled)
    = ([ Index.Listen (JS.VNumber 8000); Index.UncaughtException Samples.EADDRINUSE ],
       Index.Exited 1)
  ∧ Index.main ∅ (Samples.port_in_use Index.ErrorToCallback)
    = ([ Index.Listen (JS.VNumber 8000);
         Index.ConsoleLog "🚀 Server running on http://localhost:8000";
         Index.ConsoleLog "📊 Health check available at http://localhost:8000/health" ],
       Index.Exited 0)
  ∧ existsb Index.is_running_line
      (Index.main ∅ (Samples.port_in_use Index.ErrorToCallback)).1 = true.
Proof.
  split; [intros []; reflexivity|]. split; [reflexivity|]. split; reflexivity.
Qed.












(** C10.  When [PORT] is set, the server listens on 8000 if its value is
    the empty string, and otherwise on the value itself, the string as it
    is. *)
Theorem C10_port_from_environment (env : gmap string string) (h : Index.host) (s : string) :
  env !! "PORT" = Some s →
  Index.listen_target (Index.main env h).1
  = Some (if String.eqb s "" then JS.VNumber 8000 else JS.VString s).
Proof.
  intros Hset. rewrite IndexFacts.main_listen_target.
  unfold Index.PORT, JS.env_get, JS.or. rewrite Hset. cbn [JS.ToBoolean].
  by destruct (String.eqb s "").
Qed.

Lemma C10_witness :
  ({[ "PORT" := "" ]} : gmap string string) !! "PORT" = Some ""
  ∧ Index.listen_target (Index.main {[ "PORT" := "" ]} Samples.free_host).1
    = Some (JS.VNumber 8000).
Proof.
  split; [reflexivity|].
  exact (C10_port_from_environment {[ "PORT" := "" ]} Samples.free_host "" eq_refl).
Defined.

(** ** End to end *)

(** A process whose bind succeeded answers GET /health with 200, on the
    default port and on any port taken from the environment. *)
Lemma run_answers_health (env : gmap string string) (h : Index.host)
    (now : Z) (req : request) :
  Index.listen_throws h (Index.PORT env) = None →
  Index.bind_fails h (Index.PORT env) = None →
  is_health_get req → Date.representable now →
  ∃ effects outcome,
    Index.run env h [(now, req)] = (effects, Index.Listening, [outcome])
    ∧ status_of outcome = Some 200.
Proof.
  intros Hl Hb Hreq Ht. unfold Index.run.
  rewrite IndexFacts.main_listening by done.
  do 2 eexists. split; [reflexivity|].
  cbn [fst snd]. by rewrite ExpressFacts.handle_health.
Qed.

(** The inputs on which the router departs from an exact comparison of
    paths. *)
Example get_upper_is_200 :
  status_of (handle App.app Samples.an_instant Samples.get_upper) = Some 200.
Proof. reflexivity. Qed.

Example get_slash_is_200 :
  status_of (handle App.app Samples.an_instant Samples.get_slash) = Some 200.
Proof. reflexivity. Qed.

Example get_unknown_is_404 :
  handle App.app Samples.an_instant Samples.get_unknown = NotFound.
Proof. reflexivity. Qed.

(** A port that [listen] rejects on the spot is the failure the [catch]
    block does handle. *)
Example bad_port_is_caught :
  ∃ e, Index.main ∅ Samples.bad_port_host
       = ([ Index.Listen (JS.VNumber 8000);
            Index.ConsoleError "❌ Failed to start server:" e;
            Index.Exit 1 ], Index.Exited 1).
Proof. eexists. reflexivity. Qed.
